(** * Mycodo "Difference" function (mycodo/functions/difference.py)

    A shallow embedding of the controller that periodically reads the last
    value of two measurements, subtracts them and stores the result.

    Numbers.  The timer, the period and the clock of the schedule (lines
    192-194) and the value given to the validator are IEEE doubles, and
    are modelled as such ([catch_up_double], [tick_double],
    [run_ticks_double], [loop64], [constraints_pass_positive_value]), with
    the comparison and the addition of binary64.  The controller object
    with its body and the measurements it handles are modelled with exact
    rationals [Q]; what is proved there rests on comparisons and on the
    shape of the objects.

    Time.  [time.time()] is taken to return one value for the whole
    duration of one call of [loop]. *)

From Stdlib Require Import Floats.
From Stdlib Require Import QArith Qround Qabs ZArith List String Bool Lia Lqa.
Import ListNotations.
Open Scope Q_scope.
Set Warnings "-register-all".
Set Warnings "-inexact-float".

(** ** Python values and the operations the module applies to them *)

Module Py.

(** The values that flow through [loop]: [None], numbers, strings and
    lists (what [get_last_measurement] hands back is [None] or a list
    [[timestamp, value]]). *)
Inductive PyVal : Type :=
| PyNone
| PyNum (q : Q)
| PyStr (s : string)
| PyList (items : list PyVal).

Inductive PyExc : Type :=
| TypeError
| IndexError
| OtherError (name : string).

(** How a call ends: it returns, it raises, or (for the [while] loop with
    its fuel exhausted) it has not come back. *)
Inductive Outcome (A : Type) : Type :=
| Returns (a : A)
| Raises (e : PyExc)
| Diverges.
Arguments Returns {A} a.
Arguments Raises {A} e.
Arguments Diverges {A}.

Definition obind {A B} (o : Outcome A) (k : A -> Outcome B) : Outcome B :=
  match o with
  | Returns a => k a
  | Raises e => Raises e
  | Diverges => Diverges
  end.

Definition Qlt_bool (x y : Q) : bool := negb (Qle_bool y x).

(** [bool(v)], as tested by [if v:]. *)
Definition truthy (v : PyVal) : bool :=
  match v with
  | PyNone => false
  | PyNum q => negb (Qeq_bool q 0)
  | PyStr s => negb (String.eqb s EmptyString)
  | PyList items => match items with [] => false | _ :: _ => true end
  end.

(** [v[i]] for a non-negative literal index. *)
Definition getitem (v : PyVal) (i : nat) : Outcome PyVal :=
  match v with
  | PyList items =>
      match nth_error items i with
      | Some x => Returns x
      | None => Raises IndexError
      end
  | PyStr s =>
      match String.get i s with
      | Some c => Returns (PyStr (String c EmptyString))
      | None => Raises IndexError
      end
  | PyNone | PyNum _ => Raises TypeError
  end.

(** [x - y]: defined on numbers only; lists, strings and [None] have no
    [__sub__]. *)
Definition sub (x y : PyVal) : Outcome PyVal :=
  match x, y with
  | PyNum a, PyNum b => Returns (PyNum (a - b))
  | _, _ => Raises TypeError
  end.

(** [abs(x)]. *)
Definition abs (x : PyVal) : Outcome PyVal :=
  match x with
  | PyNum a => Returns (PyNum (Qabs a))
  | _ => Raises TypeError
  end.

End Py.
Import Py.

(** ** constraints_pass_positive_value (lines 36-49) *)






(** ** The controller object *)

Record CustomModule : Type := {
  unique_id : string;
  timer_loop : Q;
  period : Q;
  select_measurement_a_device_id : string;
  select_measurement_a_measurement_id : string;
  measurement_max_age_a : Z;
  select_measurement_b_device_id : string;
  select_measurement_b_measurement_id : string;
  measurement_max_age_b : Z;
  difference_reverse_order : bool;
  difference_absolute : bool;
  channel0_unit : string;        (* self.channels_measurement[0].unit *)
  channel0_measurement : string  (* self.channels_measurement[0].measurement *)
}.

Definition set_timer_loop (self : CustomModule) (t : Q) : CustomModule :=
  {| unique_id := unique_id self;
     timer_loop := t;
     period := period self;
     select_measurement_a_device_id := select_measurement_a_device_id self;
     select_measurement_a_measurement_id :=
       select_measurement_a_measurement_id self;
     measurement_max_age_a := measurement_max_age_a self;
     select_measurement_b_device_id := select_measurement_b_device_id self;
     select_measurement_b_measurement_id :=
       select_measurement_b_measurement_id self;
     measurement_max_age_b := measurement_max_age_b self;
     difference_reverse_order := difference_reverse_order self;
     difference_absolute := difference_absolute self;
     channel0_unit := channel0_unit self;
     channel0_measurement := channel0_measurement self |}.

(** ** What [loop] calls outside the module *)

(** The collaborators, for the duration of one call of [loop]: the clock,
    [self.get_last_measurement] (base class) and [write_influxdb_value]
    (mycodo.utils.influx).  Either call may return or raise. *)
Record World : Type := {
  time_time : Q;
  get_last_measurement : string -> string -> Z -> Outcome PyVal;
  write_influxdb_value :
    string -> string -> PyVal -> string -> Z -> Outcome unit
}.

Inductive LogMsg : Type :=
| MsgFound (which : string) (timestamp meas : PyVal)
| MsgNotFound (which : string) (max_age : Z)
| MsgOutput (difference : PyVal).

(** The calls [loop] makes, in the order it makes them. *)
Inductive Event : Type :=
| EvGetLastMeasurement (device_id measurement_id : string) (max_age : Z)
| EvDebug (msg : LogMsg)
| EvWrite (uid unit : string) (value : PyVal) (measure : string)
          (channel : Z).

(** The values handed to [write_influxdb_value] in a trace. *)
Definition written (t : list Event) : list PyVal :=
  flat_map (fun e => match e with EvWrite _ _ v _ _ => [v] | _ => [] end) t.

(** ** A monad for [self], the trace of calls, and exceptions *)

Definition M (A : Type) : Type :=
  CustomModule -> Outcome A * CustomModule * list Event.

Definition ret {A} (a : A) : M A := fun self => (Returns a, self, []).

Definition bind {A B} (m : M A) (k : A -> M B) : M B :=
  fun self =>
    match m self with
    | (Returns a, self1, t1) =>
        let '(o, self2, t2) := k a self1 in (o, self2, t1 ++ t2)
    | (Raises e, self1, t1) => (Raises e, self1, t1)
    | (Diverges, self1, t1) => (Diverges, self1, t1)
    end.

Notation "x <- m ;; k" := (bind m (fun x => k))
  (at level 61, m at next level, right associativity).
Notation "m ;;; k" := (bind m (fun _ => k))
  (at level 61, right associativity).

Definition lift {A} (o : Outcome A) : M A := fun self => (o, self, []).
Definition call (e : Event) : M unit := fun self => (Returns tt, self, [e]).
Definition get_self : M CustomModule := fun self => (Returns self, self, []).

(** ** loop (lines 191-245) *)

(** Lines 193-194: [while self.timer_loop < time.time():
    self.timer_loop += self.period].  [None] when [fuel] iterations did not
    bring the timer up to [now]. *)
Fixpoint catch_up (fuel : nat) (period now timer : Q) : option Q :=
  if Qlt_bool timer now then
    match fuel with
    | O => None
    | S fuel' => catch_up fuel' period now (timer + period)
    end
  else Some timer.

Definition advance_timer (fuel : nat) (w : World) : M unit :=
  fun self =>
    match catch_up fuel (period self) (time_time w) (timer_loop self) with
    | Some t => (Returns tt, set_timer_loop self t, [])
    | None => (Diverges, self, [])
    end.

(** Lines 201-211 and 218-228: the debug message after a read.  The
    arguments of [format] are evaluated before [logger.debug] is called,
    so the two subscripts can raise. *)
Definition log_last_measurement (which : string) (v : PyVal) (max_age : Z)
  : M unit :=
  if truthy v then
    ts <- lift (getitem v 0) ;;
    meas <- lift (getitem v 1) ;;
    call (EvDebug (MsgFound which ts meas))
  else
    call (EvDebug (MsgNotFound which max_age)).

(** Lines 230-236: the guarded subtraction, on the two objects that the
    reads returned.  [None] when the guard [a and b] is false. *)
Definition difference (reverse absolute : bool) (a b : PyVal)
  : Outcome (option PyVal) :=
  if truthy a && truthy b then
    obind (if reverse then sub b a else sub a b) (fun d =>
    obind (if absolute then abs d else Returns d) (fun d' =>
    Returns (Some d')))
  else Returns None.

(** Lines 196-245: the two reads, the subtraction and the write.  None of
    them assigns to [self]. *)
Definition loop_body (w : World) (self : CustomModule) : M unit :=
  call (EvGetLastMeasurement (select_measurement_a_device_id self)
          (select_measurement_a_measurement_id self)
          (measurement_max_age_a self)) ;;;
  last_measurement_a <-
    lift (get_last_measurement w (select_measurement_a_device_id self)
            (select_measurement_a_measurement_id self)
            (measurement_max_age_a self)) ;;
  log_last_measurement "select_measurement_a" last_measurement_a
    (measurement_max_age_a self) ;;;
  call (EvGetLastMeasurement (select_measurement_b_device_id self)
          (select_measurement_b_measurement_id self)
          (measurement_max_age_b self)) ;;;
  last_measurement_b <-
    lift (get_last_measurement w (select_measurement_b_device_id self)
            (select_measurement_b_measurement_id self)
            (measurement_max_age_b self)) ;;
  log_last_measurement "select_measurement_b" last_measurement_b
    (measurement_max_age_b self) ;;;
  d <- lift (difference (difference_reverse_order self)
               (difference_absolute self)
               last_measurement_a last_measurement_b) ;;
  match d with
  | Some v =>
      call (EvDebug (MsgOutput v)) ;;;
      call (EvWrite (unique_id self) (channel0_unit self) v
              (channel0_measurement self) 0%Z) ;;;
      lift (write_influxdb_value w (unique_id self) (channel0_unit self) v
              (channel0_measurement self) 0%Z)
  | None => ret tt
  end.

Definition loop (fuel : nat) (w : World) : M unit :=
  self <- get_self ;;
  if Qlt_bool (timer_loop self) (time_time w) then
    advance_timer fuel w ;;;
    loop_body w self
  else ret tt.

(** The three components of what a call of [loop] leaves behind. *)
Definition outcome_of {A} (r : Outcome A * CustomModule * list Event)
  : Outcome A := fst (fst r).
Definition self_of {A} (r : Outcome A * CustomModule * list Event)
  : CustomModule := snd (fst r).
Definition trace_of {A} (r : Outcome A * CustomModule * list Event)
  : list Event := snd r.

(** A computation that never assigns to [self]. *)
Definition keeps_self {A} (m : M A) : Prop :=
  forall self, self_of (m self) = self.

(** ** The schedule on its own (lines 192-194)

    [tick] is the test and the [while] loop of [loop] without the body:
    whether the body would run, and the timer afterwards. *)
Definition tick (fuel : nat) (period now timer : Q) : option (bool * Q) :=
  if Qlt_bool timer now then
    match catch_up fuel period now timer with
    | Some t => Some (true, t)
    | None => None
    end
  else Some (false, timer).

(** Successive calls at the clock readings [nows]: the number of calls
    that ran the body, and the timer at the end. *)
Fixpoint run_ticks (fuel : nat) (period timer : Q) (nows : list Q)
  : option (nat * Q) :=
  match nows with
  | [] => Some (O, timer)
  | now :: rest =>
      match tick fuel period now timer with
      | None => None
      | Some (fired, timer') =>
          match run_ticks fuel period timer' rest with
          | None => None
          | Some (n, t) => Some ((if fired then S n else n), t)
          end
      end
  end.

(** [k] executions of [self.timer_loop += self.period]. *)
Fixpoint iter_add (k : nat) (period timer : Q) : Q :=
  match k with
  | O => timer
  | S k' => iter_add k' period (timer + period)
  end.

(** ** A reader and a store for the scenarios *)

Record StoredSample : Type := {
  s_device : string;
  s_measurement : string;
  s_time : Q;
  s_value : Q
}.

Fixpoint latest (l : list StoredSample) : option StoredSample :=
  match l with
  | [] => None
  | s :: rest =>
      match latest rest with
      | None => Some s
      | Some s' => if Qlt_bool (s_time s') (s_time s) then Some s else Some s'
      end
  end.

Definition sample (timestamp value : Q) : PyVal :=
  PyList [PyNum timestamp; PyNum value].

(** Modelled from the spec: [get_last_measurement] belongs to the base
    class and to mycodo.utils.influx, neither of which is in this module.
    Per the StalenessBoundedReader contract it returns the most recent
    sample of the stream when its age does not exceed [max_age], as the
    pair [[timestamp, value]], and [None] otherwise. *)
Definition read_last (db : list StoredSample) (now : Q)
    (device_id measurement_id : string) (max_age : Z) : PyVal :=
  match latest (filter (fun s => String.eqb (s_device s) device_id
                                 && String.eqb (s_measurement s) measurement_id)
                       db) with
  | None => PyNone
  | Some s =>
      if Qle_bool (now - s_time s) (inject_Z max_age)
      then sample (s_time s) (s_value s)
      else PyNone
  end.

Definition world_of (now : Q) (db : list StoredSample) : World :=
  {| time_time := now;
     get_last_measurement := fun d m age => Returns (read_last db now d m age);
     write_influxdb_value := fun _ _ _ _ _ => Returns tt |}.

(** The scenario: period 60 s, both maximum ages 360 s, plain difference;
    the controller was created at t = 0. *)
Definition scenario_self : CustomModule :=
  {| unique_id := "fn";
     timer_loop := 0;
     period := 60;
     select_measurement_a_device_id := "devA";
     select_measurement_a_measurement_id := "measA";
     measurement_max_age_a := 360;
     select_measurement_b_device_id := "devB";
     select_measurement_b_measurement_id := "measB";
     measurement_max_age_b := 360;
     difference_reverse_order := false;
     difference_absolute := false;
     channel0_unit := "C";
     channel0_measurement := "temperature" |}%string.

Definition scenario_db : list StoredSample :=
  [ {| s_device := "devA"; s_measurement := "measA";
       s_time := 0; s_value := 5 |};
    {| s_device := "devA"; s_measurement := "measA";
       s_time := 55; s_value := 8 |};
    {| s_device := "devB"; s_measurement := "measB";
       s_time := 10; s_value := 3 |} ]%string.

(** The same controller with a maximum age of 5 s for B. *)
Definition scenario_self_b5 : CustomModule :=
  {| unique_id := "fn";
     timer_loop := 0;
     period := 60;
     select_measurement_a_device_id := "devA";
     select_measurement_a_measurement_id := "measA";
     measurement_max_age_a := 360;
     select_measurement_b_device_id := "devB";
     select_measurement_b_measurement_id := "measB";
     measurement_max_age_b := 5;
     difference_reverse_order := false;
     difference_absolute := false;
     channel0_unit := "C";
     channel0_measurement := "temperature" |}%string.

(** A world whose first read fails. *)
Definition failing_world (now : Q) : World :=
  {| time_time := now;
     get_last_measurement :=
       fun _ _ _ => Raises (OtherError "ConnectionError");
     write_influxdb_value := fun _ _ _ _ _ => Returns tt |}.

(** ** Further definitions: construction and the reads of a trace *)


(** The reads requested in a trace, in the order of the requests. *)
Definition reads (t : list Event) : list (string * string * Z) :=
  flat_map (fun e => match e with
                     | EvGetLastMeasurement d m age => [(d, m, age)]
                     | _ => []
                     end) t.

(** The scenario controller with a period of 0, which the validator of
    the period would refuse. *)
Definition scenario_self_p0 : CustomModule :=
  {| unique_id := "fn";
     timer_loop := 0;
     period := 0;
     select_measurement_a_device_id := "devA";
     select_measurement_a_measurement_id := "measA";
     measurement_max_age_a := 360;
     select_measurement_b_device_id := "devB";
     select_measurement_b_measurement_id := "measB";
     measurement_max_age_b := 360;
     difference_reverse_order := false;
     difference_absolute := false;
     channel0_unit := "C";
     channel0_measurement := "temperature" |}%string.

(** A world whose reads return a list with the value alone. *)
Definition short_sample_world (now : Q) : World :=
  {| time_time := now;
     get_last_measurement := fun _ _ _ => Returns (PyList [PyNum 8]);
     write_influxdb_value := fun _ _ _ _ _ => Returns tt |}.

(** ** The schedule on IEEE doubles *)

(** Lines 193-194 on doubles: the test is the [<] of binary64 and
    [self.timer_loop += self.period] its rounded addition.  [None] when
    [fuel] iterations did not end the loop. *)
Fixpoint catch_up_double (fuel : nat) (period now timer : float)
  : option float :=
  if PrimFloat.ltb timer now then
    match fuel with
    | O => None
    | S fuel' => catch_up_double fuel' period now (PrimFloat.add timer period)
    end
  else Some timer.

(** [k] executions of [self.timer_loop += self.period] on doubles. *)
Fixpoint iter_add_double (k : nat) (period timer : float) : float :=
  match k with
  | O => timer
  | S k' => iter_add_double k' period (PrimFloat.add timer period)
  end.

(** Lines 192-194 on doubles: whether the body would run, and the timer
    afterwards. *)
Definition tick_double (fuel : nat) (period now timer : float)
  : option (bool * float) :=
  if PrimFloat.ltb timer now then
    match catch_up_double fuel period now timer with
    | Some t => Some (true, t)
    | None => None
    end
  else Some (false, timer).

(** Successive calls at the clock readings [nows]: the number of calls
    that ran the body, and the timer at the end. *)
Fixpoint run_ticks_double (fuel : nat) (period timer : float)
    (nows : list float) : option (nat * float) :=
  match nows with
  | [] => Some (O, timer)
  | now :: rest =>
      match tick_double fuel period now timer with
      | None => None
      | Some (fired, timer') =>
          match run_ticks_double fuel period timer' rest with
          | None => None
          | Some (n, t) => Some ((if fired then S n else n), t)
          end
      end
  end.

(** The controller with its timer and its period as doubles.  [options]
    carries the other attributes; its own [timer_loop] and [period] are
    not looked at. *)
Record CustomModule64 : Type := {
  options : CustomModule;
  timer_loop64 : float;
  period64 : float
}.

Definition set_timer_loop64 (self : CustomModule64) (t : float)
  : CustomModule64 :=
  {| options := options self; timer_loop64 := t; period64 := period64 self |}.

(** [loop] with the schedule on doubles.  The body is [loop_body]: it
    reads neither the timer nor the period and assigns no attribute, so
    the controller it leaves is the one with the timer advanced. *)
Definition loop64 (fuel : nat) (now : float) (w : World)
    (self : CustomModule64) : Outcome unit * CustomModule64 * list Event :=
  if PrimFloat.ltb (timer_loop64 self) now then
    match catch_up_double fuel (period64 self) now (timer_loop64 self) with
    | Some t =>
        let r := loop_body w (options self) (options self) in
        (outcome_of r, set_timer_loop64 self t, trace_of r)
    | None => (Diverges, self, [])
    end
  else (Returns tt, self, []).


(** Case analysis on the comparisons of exponents and mantissas. *)
Ltac fold_pos_compare :=
  repeat match goal with
         | H : context [PosDef.Pos.compare_cont Eq ?a ?b] |- _ =>
             change (PosDef.Pos.compare_cont Eq a b) with (Pos.compare a b)
               in H
         | |- context [PosDef.Pos.compare_cont Eq ?a ?b] =>
             change (PosDef.Pos.compare_cont Eq a b) with (Pos.compare a b)
         end.

Ltac cmp_cases :=
  fold_pos_compare;
  repeat match goal with
         | H : context [Z.compare ?a ?b] |- _ =>
             destruct (Z.compare_spec a b)
         | |- context [Z.compare ?a ?b] =>
             destruct (Z.compare_spec a b)
         | H : context [Pos.compare ?a ?b] |- _ =>
             destruct (Pos.compare_spec a b)
         | |- context [Pos.compare ?a ?b] =>
             destruct (Pos.compare_spec a b)
         end.

(** Case analysis on every outcome the body still depends on. *)
Ltac case_all :=
  repeat (simpl;
          match goal with
          | |- context [get_last_measurement ?w ?d ?m ?age] =>
              destruct (get_last_measurement w d m age)
          | |- context [truthy ?v] => destruct (truthy v)
          | |- context [getitem ?v ?i] => destruct (getitem v i)
          | |- context [difference ?r ?s ?a ?b] =>
              destruct (difference r s a b) as [[?|]| |]
          | |- context [write_influxdb_value ?w ?u ?un ?v ?m ?c] =>
              destruct (write_influxdb_value w u un v m c)
          end).

(** Case analysis on every subscript left in the goal. *)
Ltac case_getitems :=
  repeat match goal with
         | |- context [getitem ?v ?i] => destruct (getitem v i)
         end.

(** ** Comparison of rationals *)

Lemma Qlt_bool_true (x y : Q) : Qlt_bool x y = true <-> x < y.
Proof.
  unfold Qlt_bool. rewrite negb_true_iff. split.
  - intros H. apply Qnot_le_lt. intros Hle.
    apply Qle_bool_iff in Hle. congruence.
  - intros H. destruct (Qle_bool y x) eqn:E; [|reflexivity].
    apply Qle_bool_iff in E. exfalso. exact (Qlt_not_le _ _ H E).
Qed.

Lemma Qlt_bool_false (x y : Q) : Qlt_bool x y = false <-> y <= x.
Proof.
  unfold Qlt_bool. rewrite negb_false_iff. apply Qle_bool_iff.
Qed.

(** ** The [while] loop *)

Lemma catch_up_spec (fuel : nat) (p now t d : Q) :
  catch_up fuel p now t = Some d ->
  exists k, (k <= fuel)%nat /\ d = iter_add k p t /\ now <= d /\
            forall j, (j < k)%nat -> iter_add j p t < now.
Proof.
  assert (Hstop : forall n t0, Qlt_bool t0 now = false ->
            exists k, (k <= n)%nat /\ t0 = iter_add k p t0 /\ now <= t0 /\
                      forall j, (j < k)%nat -> iter_add j p t0 < now).
  { intros n t0 E. exists O. split; [lia|]. split; [reflexivity|].
    split; [apply Qlt_bool_false; exact E|]. intros j Hj. lia. }
  revert t. induction fuel as [|fuel IH]; intros t; simpl;
    destruct (Qlt_bool t now) eqn:E; try discriminate.
  - intros [= <-]. apply Hstop; exact E.
  - intros H. destruct (IH _ H) as (k & Hk & Hd & Hnow & Hbelow).
    exists (S k). split; [lia|]. split; [exact Hd|]. split; [exact Hnow|].
    intros [|j] Hj; simpl.
    + apply Qlt_bool_true; exact E.
    + apply Hbelow. lia.
  - intros [= <-]. apply Hstop; exact E.
Qed.


(** ** [loop] against the schedule *)

Lemma loop_unfold (fuel : nat) (w : World) (self : CustomModule) :
  loop fuel w self =
  if Qlt_bool (timer_loop self) (time_time w) then
    match catch_up fuel (period self) (time_time w) (timer_loop self) with
    | Some d => loop_body w self (set_timer_loop self d)
    | None => (Diverges, self, [])
    end
  else (Returns tt, self, []).
Proof.
  unfold loop, bind, get_self, advance_timer, ret.
  destruct (Qlt_bool (timer_loop self) (time_time w)); [|reflexivity].
  destruct (catch_up fuel (period self) (time_time w) (timer_loop self));
    [|reflexivity].
  destruct (loop_body w self (set_timer_loop self q)) as [[o s] t].
  simpl. destruct o; reflexivity.
Qed.

Lemma keeps_self_ret {A} (a : A) : keeps_self (ret a).
Proof. intros s. reflexivity. Qed.

Lemma keeps_self_lift {A} (o : Outcome A) : keeps_self (lift o).
Proof. intros s. reflexivity. Qed.

Lemma keeps_self_call (e : Event) : keeps_self (call e).
Proof. intros s. reflexivity. Qed.

Lemma keeps_self_bind {A B} (m : M A) (k : A -> M B) :
  keeps_self m -> (forall a, keeps_self (k a)) -> keeps_self (bind m k).
Proof.
  intros Hm Hk s. unfold bind. specialize (Hm s).
  destruct (m s) as [[o s1] t1]. unfold self_of in Hm. simpl in Hm. subst s1.
  destruct o as [a| |]; try reflexivity.
  specialize (Hk a s). destruct (k a s) as [[o2 s2] t2]. exact Hk.
Qed.

Lemma keeps_self_log (which : string) (v : PyVal) (max_age : Z) :
  keeps_self (log_last_measurement which v max_age).
Proof.
  unfold log_last_measurement. destruct (truthy v).
  - repeat (apply keeps_self_bind; [|intros ?]);
      auto using keeps_self_lift, keeps_self_call.
  - apply keeps_self_call.
Qed.

Lemma loop_body_keeps_self (w : World) (cfg : CustomModule) :
  keeps_self (loop_body w cfg).
Proof.
  unfold loop_body.
  repeat (apply keeps_self_bind; [|intros ?]);
    auto using keeps_self_lift, keeps_self_call, keeps_self_log.
  match goal with |- keeps_self (match ?d with _ => _ end) => destruct d end.
  - repeat (apply keeps_self_bind; [|intros ?]);
      auto using keeps_self_lift, keeps_self_call.
  - apply keeps_self_ret.
Qed.

Lemma loop_not_due (fuel : nat) (w : World) (self : CustomModule) :
  time_time w <= timer_loop self ->
  loop fuel w self = (Returns tt, self, []).
Proof.
  intros H. rewrite loop_unfold.
  apply Qlt_bool_false in H. rewrite H. reflexivity.
Qed.

Lemma loop_due (fuel : nat) (w : World) (self : CustomModule) (d : Q) :
  timer_loop self < time_time w ->
  catch_up fuel (period self) (time_time w) (timer_loop self) = Some d ->
  loop fuel w self = loop_body w self (set_timer_loop self d).
Proof.
  intros H Hd. rewrite loop_unfold.
  apply Qlt_bool_true in H. rewrite H, Hd. reflexivity.
Qed.

(** C5, the claim as written, at [now = timer_loop = 60] with period 60:
    it is not the case that [now < timer_loop], yet the call does not run
    the body and leaves the timer at 60, which is not above [now]. *)
Lemma tick_at_deadline_does_not_fire :
  ~ 60 < 60 /\
  ~ (exists d, tick 1 60 60 60 = Some (true, d) /\ 60 < d) /\
  loop 1 (world_of 60 scenario_db) (set_timer_loop scenario_self 60)
    = (Returns tt, set_timer_loop scenario_self 60, []).
Proof.
  split; [intros H; discriminate H|]. split; [|reflexivity].
  intros (d & H & _). vm_compute in H. discriminate H.
Qed.

(** ** The subtraction (lines 230-236) *)


(** An object that can be subscripted cannot be subtracted. *)
Lemma subscriptable_not_subtractable (v x : PyVal) (i : nat) :
  getitem v i = Returns x ->
  forall u, sub v u = Raises TypeError /\ sub u v = Raises TypeError.
Proof.
  intros H u. destruct v; simpl in H; try discriminate H;
    split; try reflexivity; destruct u; reflexivity.
Qed.

(** C1: on two present samples [[ta, va]] and [[tb, vb]] the block
    subtracts the sample objects themselves (lines 232 and 234 have no
    [[1]]), which raises [TypeError] for every setting of the two flags; in
    particular the result is never the difference of the two values. *)
Theorem difference_of_samples_raises
    (reverse absolute : bool) (ta va tb vb : Q) :
  difference reverse absolute (sample ta va) (sample tb vb)
    = Raises TypeError /\
  difference false false (sample ta va) (sample tb vb)
    <> Returns (Some (PyNum (va - vb))).
Proof.
  split; [destruct reverse, absolute; reflexivity | discriminate].
Qed.

(** C8: with [absolute] set, on two present samples both orders of the
    subtraction raise [TypeError]; neither yields [|va - vb|]. *)
Theorem absolute_difference_of_samples_raises
    (reverse : bool) (ta va tb vb : Q) :
  difference reverse true (sample ta va) (sample tb vb) = Raises TypeError /\
  difference reverse true (sample ta va) (sample tb vb)
    <> Returns (Some (PyNum (Qabs (va - vb)))).
Proof.
  split; [destruct reverse; reflexivity | destruct reverse; discriminate].
Qed.

(** C2: the scenario tick at t = 60.  Both reads return their sample
    ([[55, 8]] for A, [[10, 3]] for B), the timer moves from 0 to 60, and
    line 234 then raises [TypeError]: nothing is written. *)
Theorem scenario_tick_raises :
  read_last scenario_db 60 "devA" "measA" 360 = sample 55 8 /\
  read_last scenario_db 60 "devB" "measB" 360 = sample 10 3 /\
  loop 1 (world_of 60 scenario_db) scenario_self
  = (Raises TypeError,
     set_timer_loop scenario_self 60,
     [EvGetLastMeasurement "devA" "measA" 360;
      EvDebug (MsgFound "select_measurement_a" (PyNum 55) (PyNum 8));
      EvGetLastMeasurement "devB" "measB" 360;
      EvDebug (MsgFound "select_measurement_b" (PyNum 10) (PyNum 3))]) /\
  written (trace_of (loop 1 (world_of 60 scenario_db) scenario_self)) = [].
Proof.
  repeat split; vm_compute; reflexivity.
Qed.

(** ** Reads that fail or find nothing *)

Lemma difference_absent (reverse absolute : bool) (a b : PyVal) :
  truthy a = false \/ truthy b = false ->
  difference reverse absolute a b = Returns None.
Proof.
  unfold difference. intros [H|H]; rewrite H; [reflexivity|].
  rewrite andb_false_r. reflexivity.
Qed.

(** C6: an absent input (a read that returned [None], or any other false
    object) makes the guard of line 230 fail for every setting of the two
    flags, so no difference is formed, and the call neither logs an output
    nor calls [write_influxdb_value]. *)
Theorem absent_input_emits_nothing
    (fuel : nat) (w : World) (self : CustomModule) (a b : PyVal) :
  get_last_measurement w (select_measurement_a_device_id self)
    (select_measurement_a_measurement_id self) (measurement_max_age_a self)
  = Returns a ->
  get_last_measurement w (select_measurement_b_device_id self)
    (select_measurement_b_measurement_id self) (measurement_max_age_b self)
  = Returns b ->
  truthy a = false \/ truthy b = false ->
  (forall reverse absolute, difference reverse absolute a b = Returns None) /\
  (forall x reverse absolute,
     difference reverse absolute PyNone x = Returns None /\
     difference reverse absolute x PyNone = Returns None) /\
  written (trace_of (loop fuel w self)) = [].
Proof.
  intros Ha Hb Habs.
  split; [intros; apply difference_absent; exact Habs|].
  split; [intros; split; apply difference_absent; [left|right]; reflexivity|].
  rewrite loop_unfold.
  destruct (Qlt_bool (timer_loop self) (time_time w)); [|reflexivity].
  destruct (catch_up fuel (period self) (time_time w) (timer_loop self));
    [|reflexivity].
  unfold loop_body, bind, lift, call, ret, trace_of. rewrite Ha, Hb.
  rewrite (difference_absent _ _ a b Habs).
  unfold log_last_measurement, bind, lift, call.
  destruct (truthy a), (truthy b); case_getitems; reflexivity.
Qed.

Lemma absent_input_emits_nothing_witness :
  let w := world_of 60 scenario_db in
  (read_last scenario_db 60 "devA" "measA" 360 = sample 55 8 /\
   read_last scenario_db 60 "devB" "measB" 5 = PyNone) /\
  (forall reverse absolute,
     difference reverse absolute (sample 55 8) PyNone = Returns None) /\
  (forall x reverse absolute,
     difference reverse absolute PyNone x = Returns None /\
     difference reverse absolute x PyNone = Returns None) /\
  written (trace_of (loop 1 w scenario_self_b5)) = [].
Proof.
  intros w. split; [split; reflexivity|].
  apply (absent_input_emits_nothing 1 w scenario_self_b5 (sample 55 8) PyNone);
    [reflexivity | reflexivity | right; reflexivity].
Defined.

(** X1: when each read returns [None], a number, a string or a list (the
    objects of [PyVal]; [get_last_measurement] hands back [None] or a
    list), or raises, the call stores nothing: to reach line 240 both
    objects must pass the subscripts of the debug messages and then be
    subtracted, and none of these objects does both. *)
Lemma loop_never_writes (fuel : nat) (w : World) (self : CustomModule) :
  written (trace_of (loop fuel w self)) = [].
Proof.
  rewrite loop_unfold.
  destruct (Qlt_bool (timer_loop self) (time_time w)); [|reflexivity].
  destruct (catch_up fuel (period self) (time_time w) (timer_loop self));
    [|reflexivity].
  unfold loop_body, bind, lift, call, ret, trace_of.
  destruct (get_last_measurement w (select_measurement_a_device_id self)
              (select_measurement_a_measurement_id self)
              (measurement_max_age_a self)) as [a| |]; try reflexivity.
  destruct (get_last_measurement w (select_measurement_b_device_id self)
              (select_measurement_b_measurement_id self)
              (measurement_max_age_b self)) as [b| |].
  - unfold log_last_measurement, difference, bind, lift, call.
    destruct (truthy a) eqn:Ta, (truthy b) eqn:Tb; simpl.
    + destruct (getitem a 0) eqn:Ga; try reflexivity.
      rewrite (proj1 (subscriptable_not_subtractable a _ _ Ga b)).
      rewrite (proj2 (subscriptable_not_subtractable a _ _ Ga b)).
      case_getitems; destruct (difference_reverse_order self); reflexivity.
    + case_getitems; reflexivity.
    + case_getitems; reflexivity.
    + reflexivity.
  - unfold log_last_measurement, bind, lift, call.
    destruct (truthy a); case_getitems; reflexivity.
  - unfold log_last_measurement, bind, lift, call.
    destruct (truthy a); case_getitems; reflexivity.
Qed.

(** C3 (as the code has it): [loop] contains no handler.  When the body
    runs and [get_last_measurement] raises for A, or returns for A and
    raises for B, the exception leaves [loop] as it was raised; the timer
    has been advanced by then and nothing has been written.  When both
    reads return [None] the call returns normally. *)
Theorem loop_propagates_read_failure
    (fuel : nat) (w : World) (self : CustomModule) (d : Q) (e : PyExc) :
  timer_loop self < time_time w ->
  catch_up fuel (period self) (time_time w) (timer_loop self) = Some d ->
  let read_a :=
    get_last_measurement w (select_measurement_a_device_id self)
      (select_measurement_a_measurement_id self) (measurement_max_age_a self)
  in
  let read_b :=
    get_last_measurement w (select_measurement_b_device_id self)
      (select_measurement_b_measurement_id self) (measurement_max_age_b self)
  in
  let ev_a :=
    EvGetLastMeasurement (select_measurement_a_device_id self)
      (select_measurement_a_measurement_id self) (measurement_max_age_a self)
  in
  let ev_b :=
    EvGetLastMeasurement (select_measurement_b_device_id self)
      (select_measurement_b_measurement_id self) (measurement_max_age_b self)
  in
  let none_a :=
    EvDebug (MsgNotFound "select_measurement_a" (measurement_max_age_a self))
  in
  let none_b :=
    EvDebug (MsgNotFound "select_measurement_b" (measurement_max_age_b self))
  in
  (read_a = Raises e ->
   loop fuel w self = (Raises e, set_timer_loop self d, [ev_a])) /\
  (read_a = Returns PyNone -> read_b = Raises e ->
   loop fuel w self
   = (Raises e, set_timer_loop self d, [ev_a; none_a; ev_b])) /\
  (forall ts v, read_a = Returns (sample ts v) -> read_b = Raises e ->
   loop fuel w self
   = (Raises e, set_timer_loop self d,
      [ev_a;
       EvDebug (MsgFound "select_measurement_a" (PyNum ts) (PyNum v));
       ev_b])) /\
  (read_a = Returns PyNone -> read_b = Returns PyNone ->
   loop fuel w self
   = (Returns tt, set_timer_loop self d, [ev_a; none_a; ev_b; none_b])).
Proof.
  intros Hdue Hd read_a read_b ev_a ev_b none_a none_b.
  rewrite (loop_due _ _ _ _ Hdue Hd).
  subst read_a read_b ev_a ev_b none_a none_b.
  unfold loop_body, bind, lift, call, ret.
  split; [intros ->; reflexivity|].
  split; [intros -> ->; reflexivity|].
  split; [intros ts v -> ->; reflexivity|].
  intros -> ->; reflexivity.
Qed.

Lemma loop_propagates_read_failure_witness :
  (timer_loop scenario_self < 60 /\
   catch_up 1 (period scenario_self) 60 (timer_loop scenario_self)
   = Some 60) /\
  loop 1 (failing_world 60) scenario_self
  = (Raises (OtherError "ConnectionError"),
     set_timer_loop scenario_self 60,
     [EvGetLastMeasurement "devA" "measA" 360]).
Proof.
  split; [split; reflexivity|].
  apply (proj1 (loop_propagates_read_failure 1 (failing_world 60)
                  scenario_self 60 (OtherError "ConnectionError")
                  eq_refl eq_refl)).
  reflexivity.
Defined.

(** C3, the claim as written: a call whose first read fails ends with
    that exception, and so does the scenario tick, whose subtraction
    raises. *)
Lemma loop_raises_to_caller :
  outcome_of (loop 1 (failing_world 60) scenario_self)
  = Raises (OtherError "ConnectionError") /\
  outcome_of (loop 1 (world_of 60 scenario_db) scenario_self)
  = Raises TypeError.
Proof.
  split; vm_compute; reflexivity.
Qed.

(** ** Successive calls *)

(** C4, the claim as written, with period 1 and timer 0.  One call at
    t = 3 runs the body once, not [floor(3/1) = 3] times.  Two calls at
    t = 1/2 and t = 3/2 run it twice, more than [floor((3/2)/1) = 1], and
    leave the timer at 2, not at [0 + 1 * 1]. *)
Lemma late_tick_fires_once :
  (0 < 1 /\ 1 <= 3 /\
   run_ticks 3 1 0 [3] = Some (1%nat, 3) /\ Qfloor (3 / 1) = 3%Z) /\
  (1 <= 3 # 2 /\
   run_ticks 3 1 0 [1 # 2; 3 # 2] = Some (2%nat, 2) /\
   Qfloor ((3 # 2) / 1) = 1%Z /\ ~ 2 == 0 + inject_Z 1 * 1).
Proof.
  split.
  - split; [reflexivity|]. split; [discriminate|]. split; reflexivity.
  - split; [discriminate|]. split; [vm_compute; reflexivity|].
    split; [reflexivity | discriminate].
Qed.

(** ** More on the [while] loop *)

Lemma catch_up_diverges (p now : Q) :
  p <= 0 -> forall fuel t, t < now -> catch_up fuel p now t = None.
Proof.
  intros Hp. induction fuel as [|fuel IH]; intros t Hlt; simpl;
    rewrite (proj2 (Qlt_bool_true t now) Hlt); [reflexivity|].
  apply IH. lra.
Qed.

(** X3: with a period that is zero or negative and the timer below the
    clock, the [while] loop never ends: whatever the number of iterations
    allowed, the call has not come back, and it has made no read. *)
Theorem nonpositive_period_never_returns
    (fuel : nat) (w : World) (self : CustomModule) :
  period self <= 0 ->
  timer_loop self < time_time w ->
  loop fuel w self = (Diverges, self, []).
Proof.
  intros Hp Hlt. rewrite loop_unfold.
  rewrite (proj2 (Qlt_bool_true _ _) Hlt).
  rewrite (catch_up_diverges _ _ Hp fuel _ Hlt). reflexivity.
Qed.

Lemma nonpositive_period_never_returns_witness :
  (period scenario_self_p0 <= 0 /\ timer_loop scenario_self_p0 < 60) /\
  loop 1000 (world_of 60 scenario_db) scenario_self_p0
  = (Diverges, scenario_self_p0, []).
Proof.
  split; [split; [discriminate | reflexivity]|].
  apply (nonpositive_period_never_returns 1000 (world_of 60 scenario_db)
           scenario_self_p0); [discriminate | reflexivity].
Defined.

Lemma set_timer_loop_same (self : CustomModule) :
  set_timer_loop self (timer_loop self) = self.
Proof. destruct self; reflexivity. Qed.

(** X4: a call changes nothing of the controller but [timer_loop], and it
    moves the timer by a whole number of periods (none when the body does
    not run), whatever the collaborators do. *)
Theorem loop_changes_only_timer
    (fuel : nat) (w : World) (self : CustomModule) :
  exists k, (k <= fuel)%nat /\
    self_of (loop fuel w self)
    = set_timer_loop self (iter_add k (period self) (timer_loop self)).
Proof.
  rewrite loop_unfold.
  destruct (Qlt_bool (timer_loop self) (time_time w)).
  - destruct (catch_up fuel (period self) (time_time w) (timer_loop self))
      as [d|] eqn:E.
    + destruct (catch_up_spec _ _ _ _ _ E) as (k & Hk & -> & _).
      exists k. split; [exact Hk|]. apply loop_body_keeps_self.
    + exists O. split; [lia|]. simpl. symmetry. apply set_timer_loop_same.
  - exists O. split; [lia|]. simpl. symmetry. apply set_timer_loop_same.
Qed.

(** X6: once a call has come back, a further call at the same or an
    earlier clock reading does nothing: the body never runs twice for one
    reading of the clock. *)
Theorem repeated_call_does_nothing
    (fuel fuel' : nat) (w w' : World) (self : CustomModule) :
  outcome_of (loop fuel w self) <> Diverges ->
  time_time w' <= time_time w ->
  loop fuel' w' (self_of (loop fuel w self))
  = (Returns tt, self_of (loop fuel w self), []).
Proof.
  intros Hret Hw. apply loop_not_due. revert Hret. rewrite loop_unfold.
  destruct (Qlt_bool (timer_loop self) (time_time w)) eqn:E.
  - destruct (catch_up fuel (period self) (time_time w) (timer_loop self))
      as [d|] eqn:C.
    + intros _. rewrite loop_body_keeps_self. simpl.
      destruct (catch_up_spec _ _ _ _ _ C) as (k & _ & _ & Hge & _). lra.
    + intros H. exfalso. apply H. reflexivity.
  - intros _. apply Qlt_bool_false in E. unfold self_of. simpl. lra.
Qed.

Lemma repeated_call_does_nothing_witness :
  let w := world_of 60 scenario_db in
  (outcome_of (loop 1 w scenario_self) <> Diverges /\
   time_time w <= time_time w) /\
  loop 0 w (self_of (loop 1 w scenario_self))
  = (Returns tt, self_of (loop 1 w scenario_self), []).
Proof.
  intros w.
  assert (H : outcome_of (loop 1 w scenario_self) <> Diverges)
    by (vm_compute; discriminate).
  split; [split; [exact H | apply Qle_refl]|].
  apply (repeated_call_does_nothing 1 0 w w scenario_self H), Qle_refl.
Defined.

(** ** More on the body *)

(** X7: a call asks for A first and for B second, each at most once: the
    reads of its trace are none, A alone, or A then B. *)
Theorem loop_reads_in_order (fuel : nat) (w : World) (self : CustomModule) :
  let read_a := (select_measurement_a_device_id self,
                 select_measurement_a_measurement_id self,
                 measurement_max_age_a self) in
  let read_b := (select_measurement_b_device_id self,
                 select_measurement_b_measurement_id self,
                 measurement_max_age_b self) in
  reads (trace_of (loop fuel w self)) = [] \/
  reads (trace_of (loop fuel w self)) = [read_a] \/
  reads (trace_of (loop fuel w self)) = [read_a; read_b].
Proof.
  intros read_a read_b. subst read_a read_b. rewrite loop_unfold.
  destruct (Qlt_bool (timer_loop self) (time_time w)); [|left; reflexivity].
  destruct (catch_up fuel (period self) (time_time w) (timer_loop self));
    [|left; reflexivity].
  unfold loop_body, log_last_measurement, bind, lift, call, ret, trace_of.
  case_all;
    first [left; reflexivity | right; left; reflexivity
          | right; right; reflexivity].
Qed.

(** X8: a read that returns a true object without a [[0]] or a [[1]] (a
    bare number, a list with the value alone) makes the debug message of
    line 202 raise; for A this ends the call before B is asked for, with
    the timer already advanced. *)
Theorem malformed_sample_raises
    (fuel : nat) (w : World) (self : CustomModule) (d : Q)
    (v : PyVal) (e : PyExc) :
  timer_loop self < time_time w ->
  catch_up fuel (period self) (time_time w) (timer_loop self) = Some d ->
  get_last_measurement w (select_measurement_a_device_id self)
    (select_measurement_a_measurement_id self) (measurement_max_age_a self)
  = Returns v ->
  truthy v = true ->
  getitem v 0 = Raises e \/
  ((exists x, getitem v 0 = Returns x) /\ getitem v 1 = Raises e) ->
  loop fuel w self
  = (Raises e, set_timer_loop self d,
     [EvGetLastMeasurement (select_measurement_a_device_id self)
        (select_measurement_a_measurement_id self)
        (measurement_max_age_a self)]).
Proof.
  intros Hdue Hd Hv Ht Hbad. rewrite (loop_due _ _ _ _ Hdue Hd).
  unfold loop_body, log_last_measurement, bind, lift, call, ret.
  rewrite Hv, Ht.
  destruct Hbad as [H0|[[x H0] H1]]; rewrite H0; [reflexivity|].
  rewrite H1. reflexivity.
Qed.

Lemma malformed_sample_raises_witness :
  let w := short_sample_world 60 in
  (timer_loop scenario_self < time_time w /\
   catch_up 1 (period scenario_self) (time_time w) (timer_loop scenario_self)
   = Some 60 /\
   truthy (PyList [PyNum 8]) = true /\
   getitem (PyList [PyNum 8]) 1 = Raises IndexError) /\
  loop 1 w scenario_self
  = (Raises IndexError, set_timer_loop scenario_self 60,
     [EvGetLastMeasurement "devA" "measA" 360]).
Proof.
  intros w.
  split; [repeat split; reflexivity|].
  apply (malformed_sample_raises 1 w scenario_self 60 (PyList [PyNum 8])
           IndexError); try reflexivity.
  right. split; [exists (PyNum 8)|]; reflexivity.
Defined.



(** ** The first call *)

Lemma trace_bind_call {B} (e : Event) (k : unit -> M B)
    (self : CustomModule) :
  trace_of (bind (call e) k self) = e :: trace_of (k tt self).
Proof.
  unfold bind, call, trace_of. destruct (k tt self) as [[o s2] t2].
  reflexivity.
Qed.

Lemma loop_body_first_event (w : World) (cfg self : CustomModule) :
  exists rest,
    trace_of (loop_body w cfg self)
    = EvGetLastMeasurement (select_measurement_a_device_id cfg)
        (select_measurement_a_measurement_id cfg)
        (measurement_max_age_a cfg) :: rest.
Proof.
  unfold loop_body. rewrite trace_bind_call. eexists. reflexivity.
Qed.



(** ** Two present measurements *)

Lemma getitem_outcomes (v : PyVal) (i : nat) :
  (exists x, getitem v i = Returns x) \/
  getitem v i = Raises TypeError \/ getitem v i = Raises IndexError.
Proof.
  destruct v as [|q|s|items]; simpl; auto.
  - destruct (String.get i s); eauto.
  - destruct (nth_error items i); eauto.
Qed.

(** X13: when the body runs and both reads return a true object that is
    a number, a string or a list (the true objects of [PyVal]), the call
    always ends in an exception, [TypeError] or [IndexError], whatever the
    two flags are: either a debug message cannot subscript the object, or
    the subtraction of line 232 or 234 cannot subtract it. *)
Theorem present_inputs_always_raise
    (fuel : nat) (w : World) (self : CustomModule) (d : Q) (a b : PyVal) :
  timer_loop self < time_time w ->
  catch_up fuel (period self) (time_time w) (timer_loop self) = Some d ->
  get_last_measurement w (select_measurement_a_device_id self)
    (select_measurement_a_measurement_id self) (measurement_max_age_a self)
  = Returns a ->
  get_last_measurement w (select_measurement_b_device_id self)
    (select_measurement_b_measurement_id self) (measurement_max_age_b self)
  = Returns b ->
  truthy a = true -> truthy b = true ->
  outcome_of (loop fuel w self) = Raises TypeError \/
  outcome_of (loop fuel w self) = Raises IndexError.
Proof.
  intros Hdue Hd Ha Hb Ta Tb. rewrite (loop_due _ _ _ _ Hdue Hd).
  unfold loop_body, log_last_measurement, difference, bind, lift, call, ret,
    outcome_of.
  rewrite Ha, Hb, Ta, Tb.
  destruct (getitem_outcomes a 0) as [[x0 A0]|[A0|A0]]; rewrite A0; simpl;
    auto.
  destruct (getitem_outcomes a 1) as [[x1 A1]|[A1|A1]]; rewrite A1; simpl;
    auto.
  destruct (getitem_outcomes b 0) as [[y0 B0]|[B0|B0]]; rewrite B0; simpl;
    auto.
  destruct (getitem_outcomes b 1) as [[y1 B1]|[B1|B1]]; rewrite B1; simpl;
    auto.
  destruct (subscriptable_not_subtractable a _ _ A0 b) as [S1 S2].
  rewrite S1, S2. destruct (difference_reverse_order self); simpl; auto.
Qed.

Lemma present_inputs_always_raise_witness :
  let w := world_of 60 scenario_db in
  (timer_loop scenario_self < time_time w /\
   catch_up 1 (period scenario_self) (time_time w) (timer_loop scenario_self)
   = Some 60 /\
   truthy (sample 55 8) = true /\ truthy (sample 10 3) = true) /\
  (outcome_of (loop 1 w scenario_self) = Raises TypeError \/
   outcome_of (loop 1 w scenario_self) = Raises IndexError).
Proof.
  intros w. split; [repeat split; reflexivity|].
  apply (present_inputs_always_raise 1 w scenario_self 60
           (sample 55 8) (sample 10 3)); reflexivity.
Defined.

(** ** The order of doubles *)

Lemma SFltb_leb_trans (a b c : spec_float) :
  SFltb a b = true -> SFleb b c = true -> SFltb a c = true.
Proof.
  unfold SFltb, SFleb, SFcompare.
  destruct a as [sa|sa| |sa ma ea], b as [sb|sb| |sb mb eb],
    c as [sc|sc| |sc mc ec];
    try discriminate;
    repeat match goal with s : bool |- _ => destruct s end;
    try discriminate; try reflexivity;
    intros H1 H2;
    cmp_cases; simpl in *; try discriminate; try reflexivity; try lia.
Qed.

Lemma SFleb_not_ltb (a b : spec_float) :
  SFleb a b = true -> SFltb b a = false.
Proof.
  unfold SFltb, SFleb, SFcompare.
  destruct a as [sa|sa| |sa ma ea], b as [sb|sb| |sb mb eb];
    try discriminate;
    repeat match goal with s : bool |- _ => destruct s end;
    try discriminate; try reflexivity;
    intros H1;
    cmp_cases; simpl in *; try discriminate; try reflexivity; try lia.
Qed.

(** [a < b] and [b <= c] give [a < c]. *)
Lemma ltb_leb_trans (a b c : float) :
  PrimFloat.ltb a b = true -> PrimFloat.leb b c = true ->
  PrimFloat.ltb a c = true.
Proof.
  rewrite !ltb_spec, leb_spec. apply SFltb_leb_trans.
Qed.

(** [a <= b] excludes [b < a]. *)
Lemma leb_not_ltb (a b : float) :
  PrimFloat.leb a b = true -> PrimFloat.ltb b a = false.
Proof.
  rewrite ltb_spec, leb_spec. apply SFleb_not_ltb.
Qed.

Lemma not_ltb_of_leb (a b c : float) :
  PrimFloat.ltb a b = false -> PrimFloat.leb c b = true ->
  PrimFloat.ltb a c = false.
Proof.
  intros Hab Hcb. destruct (PrimFloat.ltb a c) eqn:E; [|reflexivity].
  rewrite (ltb_leb_trans _ _ _ E Hcb) in Hab. discriminate Hab.
Qed.

(** ** The [while] loop on doubles *)

Lemma iter_add_double_app (k1 k2 : nat) (p t : float) :
  iter_add_double (k1 + k2) p t
  = iter_add_double k2 p (iter_add_double k1 p t).
Proof.
  revert t. induction k1 as [|k1 IH]; intros t; simpl; [reflexivity|].
  apply IH.
Qed.

Lemma catch_up_double_spec (fuel : nat) (p now t d : float) :
  catch_up_double fuel p now t = Some d ->
  exists k, (k <= fuel)%nat /\ d = iter_add_double k p t /\
            PrimFloat.ltb d now = false /\
            forall j, (j < k)%nat ->
                      PrimFloat.ltb (iter_add_double j p t) now = true.
Proof.
  assert (Hstop : forall n t0, PrimFloat.ltb t0 now = false ->
            exists k, (k <= n)%nat /\ t0 = iter_add_double k p t0 /\
                      PrimFloat.ltb t0 now = false /\
                      forall j, (j < k)%nat ->
                        PrimFloat.ltb (iter_add_double j p t0) now = true).
  { intros n t0 E. exists O. split; [lia|]. split; [reflexivity|].
    split; [exact E|]. intros j Hj. lia. }
  revert t. induction fuel as [|fuel IH]; intros t; simpl;
    destruct (PrimFloat.ltb t now) eqn:E; try discriminate.
  - intros [= <-]. apply Hstop; exact E.
  - intros H. destruct (IH _ H) as (k & Hk & Hd & Hnow & Hbelow).
    exists (S k). split; [lia|]. split; [exact Hd|]. split; [exact Hnow|].
    intros [|j] Hj; simpl; [exact E | apply Hbelow; lia].
  - intros [= <-]. apply Hstop; exact E.
Qed.

Lemma catch_up_double_complete (k : nat) (p now t : float) :
  PrimFloat.ltb (iter_add_double k p t) now = false ->
  (forall j, (j < k)%nat -> PrimFloat.ltb (iter_add_double j p t) now = true) ->
  forall fuel, (k <= fuel)%nat ->
    catch_up_double fuel p now t = Some (iter_add_double k p t).
Proof.
  revert t. induction k as [|k IH]; intros t Hge Hlt fuel Hfuel.
  - simpl in Hge. destruct fuel; simpl; rewrite Hge; reflexivity.
  - destruct fuel as [|fuel]; [lia|]. simpl.
    pose proof (Hlt O (Nat.lt_0_succ k)) as H0. simpl in H0. rewrite H0.
    apply IH; [exact Hge| |lia].
    intros j Hj. apply (Hlt (S j)). lia.
Qed.

(** The first sum that is not below [now], when there is one. *)
Lemma first_sum_not_below (p now t : float) (K : nat) :
  PrimFloat.ltb (iter_add_double K p t) now = false ->
  exists k, (k <= K)%nat /\
    PrimFloat.ltb (iter_add_double k p t) now = false /\
    forall j, (j < k)%nat -> PrimFloat.ltb (iter_add_double j p t) now = true.
Proof.
  revert t. induction K as [|K IH]; intros t HK.
  - exists O. split; [lia|]. split; [exact HK|]. intros j Hj. lia.
  - destruct (PrimFloat.ltb t now) eqn:E.
    + destruct (IH (PrimFloat.add t p) HK) as (k & Hk & Hge & Hlt).
      exists (S k). split; [lia|]. split; [exact Hge|].
      intros [|j] Hj; simpl; [exact E | apply Hlt; lia].
    + exists O. split; [lia|]. split; [exact E|]. intros j Hj. lia.
Qed.





(** ** One call on doubles *)

Lemma tick_double_spec (fuel : nat) (p now t : float) (fired : bool)
    (d : float) :
  tick_double fuel p now t = Some (fired, d) ->
  PrimFloat.ltb d now = false /\ fired = PrimFloat.ltb t now /\
  exists k, (k <= fuel)%nat /\ d = iter_add_double k p t /\
    (fired = true -> (1 <= k)%nat) /\
    forall j, (j < k)%nat -> PrimFloat.ltb (iter_add_double j p t) now = true.
Proof.
  unfold tick_double. destruct (PrimFloat.ltb t now) eqn:E.
  - destruct (catch_up_double fuel p now t) as [d'|] eqn:C; [|discriminate].
    intros [= <- <-].
    destruct (catch_up_double_spec _ _ _ _ _ C) as (k & Hk & Hd & Hge & Hlt).
    split; [exact Hge|]. split; [reflexivity|].
    exists k. split; [exact Hk|]. split; [exact Hd|]. split; [|exact Hlt].
    intros _. destruct k as [|k]; [|lia].
    simpl in Hd. subst d'. rewrite E in Hge. discriminate Hge.
  - intros [= <- <-]. split; [exact E|]. split; [reflexivity|].
    exists O. split; [lia|]. split; [reflexivity|].
    split; [discriminate|]. intros j Hj. lia.
Qed.

Lemma tick_double_due (k : nat) (p now t : float) :
  PrimFloat.ltb t now = true ->
  PrimFloat.ltb (iter_add_double k p t) now = false ->
  (forall j, (j < k)%nat -> PrimFloat.ltb (iter_add_double j p t) now = true) ->
  (1 <= k)%nat /\
  forall fuel, (k <= fuel)%nat ->
    tick_double fuel p now t = Some (true, iter_add_double k p t).
Proof.
  intros Hdue Hge Hlt. split.
  - destruct k as [|k]; [|lia]. simpl in Hge. rewrite Hdue in Hge.
    discriminate Hge.
  - intros fuel Hfuel. unfold tick_double. rewrite Hdue.
    rewrite (catch_up_double_complete k p now t Hge Hlt fuel Hfuel).
    reflexivity.
Qed.

Lemma loop64_not_due (fuel : nat) (now : float) (w : World)
    (self : CustomModule64) :
  PrimFloat.ltb (timer_loop64 self) now = false ->
  loop64 fuel now w self = (Returns tt, self, []).
Proof.
  intros H. unfold loop64. rewrite H. reflexivity.
Qed.

Lemma loop64_due (fuel : nat) (now : float) (w : World)
    (self : CustomModule64) (d : float) :
  PrimFloat.ltb (timer_loop64 self) now = true ->
  catch_up_double fuel (period64 self) now (timer_loop64 self) = Some d ->
  loop64 fuel now w self
  = (outcome_of (loop_body w (options self) (options self)),
     set_timer_loop64 self d,
     trace_of (loop_body w (options self) (options self))).
Proof.
  intros H C. unfold loop64. rewrite H, C. reflexivity.
Qed.

(** C5 (as the code has it): a call in which [timer_loop < now] is false,
    as it is whenever [now <= timer_loop], the case [now = timer_loop]
    included, does nothing: the timer is unchanged and no call is made.  A
    call with [timer_loop < now] adds the period as long as the timer is
    below [now]; when the [k]-th sum is the first that is not below [now],
    the loop ends there, after [k >= 1] additions, and the body runs (it
    asks for A first).  Whenever the call comes back the timer is not below
    [now]; it may equal it. *)
Theorem tick_double_fires_strictly_after_timer
    (p now t : float) (o : CustomModule) :
  let self := {| options := o; timer_loop64 := t; period64 := p |} in
  (PrimFloat.leb now t = true -> PrimFloat.ltb t now = false) /\
  (PrimFloat.ltb t now = false ->
   forall fuel w,
     tick_double fuel p now t = Some (false, t) /\
     loop64 fuel now w self = (Returns tt, self, [])) /\
  (PrimFloat.ltb t now = true ->
   forall k,
     PrimFloat.ltb (iter_add_double k p t) now = false ->
     (forall j, (j < k)%nat ->
                PrimFloat.ltb (iter_add_double j p t) now = true) ->
     (1 <= k)%nat /\
     forall fuel w, (k <= fuel)%nat ->
       tick_double fuel p now t = Some (true, iter_add_double k p t) /\
       snd (fst (loop64 fuel now w self))
       = set_timer_loop64 self (iter_add_double k p t) /\
       exists rest,
         snd (loop64 fuel now w self)
         = EvGetLastMeasurement (select_measurement_a_device_id o)
             (select_measurement_a_measurement_id o)
             (measurement_max_age_a o) :: rest) /\
  (forall fuel fired d,
     tick_double fuel p now t = Some (fired, d) ->
     PrimFloat.ltb d now = false /\ fired = PrimFloat.ltb t now /\
     exists k, (k <= fuel)%nat /\ d = iter_add_double k p t /\
       (fired = true -> (1 <= k)%nat) /\
       forall j, (j < k)%nat ->
                 PrimFloat.ltb (iter_add_double j p t) now = true).
Proof.
  intros self. split; [apply leb_not_ltb|]. split.
  - intros H fuel w. split.
    + unfold tick_double. rewrite H. reflexivity.
    + apply loop64_not_due. exact H.
  - split; [|intros fuel fired d; apply tick_double_spec].
    intros Hdue k Hge Hlt.
    destruct (tick_double_due k p now t Hdue Hge Hlt) as [Hk Hrun].
    split; [exact Hk|]. intros fuel w Hfuel. split; [apply Hrun; exact Hfuel|].
    rewrite (loop64_due fuel now w self (iter_add_double k p t) Hdue
               (catch_up_double_complete k p now t Hge Hlt fuel Hfuel)).
    split; [reflexivity|]. simpl. apply loop_body_first_event.
Qed.

Lemma tick_double_fires_strictly_after_timer_witness :
  (PrimFloat.leb 60 60 = true /\
   PrimFloat.ltb 0 0.20000000000000004 = true /\
   PrimFloat.ltb (iter_add_double 3 0.1 0) 0.20000000000000004 = false) /\
  tick_double 1 60 60 60 = Some (false, 60%float) /\
  tick_double 3 0.1 0.20000000000000004 0
  = Some (true, 0.30000000000000004%float) /\
  PrimFloat.sub 0.30000000000000004 0.1 = 0.20000000000000004%float.
Proof.
  split; [repeat split; reflexivity|].
  pose proof (tick_double_fires_strictly_after_timer 60 60 60 scenario_self)
    as (Hle & Hnot & _).
  pose proof (tick_double_fires_strictly_after_timer
                0.1 0.20000000000000004 0 scenario_self)
    as (_ & _ & Hdue & _).
  split.
  - exact (proj1 (Hnot (Hle eq_refl) 1%nat (world_of 60 scenario_db))).
  - split; [|reflexivity].
    assert (Hlt : forall j, (j < 3)%nat ->
              PrimFloat.ltb (iter_add_double j 0.1 0) 0.20000000000000004
              = true).
    { intros j Hj.
      destruct j as [|[|[|j]]]; [reflexivity | reflexivity | reflexivity | lia]. }
    exact (proj1 (proj2 (Hdue eq_refl 3%nat eq_refl Hlt)
                    3%nat (world_of 60 scenario_db) (Nat.le_refl 3))).
Defined.




(** ** The validator of the period *)





(** ** Successive calls on doubles *)

Lemma catch_up_double_fuel_mono (fuel fuel' : nat) (p now t d : float) :
  catch_up_double fuel p now t = Some d -> (fuel <= fuel')%nat ->
  catch_up_double fuel' p now t = Some d.
Proof.
  intros H Hle.
  destruct (catch_up_double_spec _ _ _ _ _ H) as (k & Hk & -> & Hge & Hlt).
  apply catch_up_double_complete; [exact Hge | exact Hlt | lia].
Qed.

Lemma tick_double_fuel_mono (fuel fuel' : nat) (p now t : float)
    (r : bool * float) :
  tick_double fuel p now t = Some r -> (fuel <= fuel')%nat ->
  tick_double fuel' p now t = Some r.
Proof.
  unfold tick_double. destruct (PrimFloat.ltb t now); [|auto].
  destruct (catch_up_double fuel p now t) as [d|] eqn:E; [|discriminate].
  intros H Hle. rewrite (catch_up_double_fuel_mono _ _ _ _ _ _ E Hle).
  exact H.
Qed.

Lemma run_ticks_double_fuel_mono (fuel fuel' : nat) (p : float)
    (nows : list float) :
  (fuel <= fuel')%nat ->
  forall t r, run_ticks_double fuel p t nows = Some r ->
              run_ticks_double fuel' p t nows = Some r.
Proof.
  intros Hle. induction nows as [|now rest IH]; intros t r; simpl; [auto|].
  destruct (tick_double fuel p now t) as [[fired t']|] eqn:E; [|discriminate].
  rewrite (tick_double_fuel_mono _ _ _ _ _ _ E Hle).
  destruct (run_ticks_double fuel p t' rest) as [[n d]|] eqn:R;
    [|discriminate].
  rewrite (IH _ _ R). auto.
Qed.

(** From the [i]-th sum the loop stops at a sum no later than any sum
    that is not below [now]. *)
Lemma catch_up_double_within (p t0 now : float) (i kstar fuel : nat) :
  (i <= kstar)%nat -> (kstar <= fuel)%nat ->
  PrimFloat.ltb (iter_add_double kstar p t0) now = false ->
  exists j, (i <= j <= kstar)%nat /\
    catch_up_double fuel p now (iter_add_double i p t0)
    = Some (iter_add_double j p t0) /\
    PrimFloat.ltb (iter_add_double j p t0) now = false.
Proof.
  intros Hi Hfuel Hge.
  assert (HK : PrimFloat.ltb
                 (iter_add_double (kstar - i) p (iter_add_double i p t0)) now
               = false).
  { rewrite <- iter_add_double_app.
    replace (i + (kstar - i))%nat with kstar by lia. exact Hge. }
  destruct (first_sum_not_below p now _ _ HK) as (k & Hk & Hkge & Hklt).
  exists (i + k)%nat. split; [lia|].
  rewrite (iter_add_double_app i k p t0). split; [|exact Hkge].
  apply catch_up_double_complete; [exact Hkge | exact Hklt | lia].
Qed.

Lemma run_ticks_double_inv (p t0 tmax : float) (kstar : nat) :
  PrimFloat.ltb (iter_add_double kstar p t0) tmax = false ->
  (forall j, (j < kstar)%nat ->
             PrimFloat.ltb (iter_add_double j p t0) tmax = true) ->
  forall nows,
    (forall x, In x nows -> PrimFloat.leb x tmax = true) ->
    forall i fuel, (i <= kstar)%nat -> (kstar <= fuel)%nat ->
    exists n j,
      run_ticks_double fuel p (iter_add_double i p t0) nows
      = Some (n, iter_add_double j p t0) /\
      (i <= j <= kstar)%nat /\ (n <= j - i)%nat /\
      (n <= List.length nows)%nat /\ ((i < j)%nat -> (1 <= n)%nat) /\
      (In tmax nows -> j = kstar).
Proof.
  intros Hge Hlt. induction nows as [|now rest IH]; intros Hle i fuel Hi Hfuel.
  - exists O, i. simpl. split; [reflexivity|]. split; [lia|]. split; [lia|].
    split; [lia|]. split; [lia|]. intros [].
  - assert (Hnow : PrimFloat.leb now tmax = true)
      by (apply Hle; left; reflexivity).
    assert (Hrest : forall x, In x rest -> PrimFloat.leb x tmax = true)
      by (intros x Hx; apply Hle; right; exact Hx).
    assert (Hstar : PrimFloat.ltb (iter_add_double kstar p t0) now = false)
      by (exact (not_ltb_of_leb _ _ _ Hge Hnow)).
    simpl. unfold tick_double.
    destruct (PrimFloat.ltb (iter_add_double i p t0) now) eqn:E.
    + destruct (catch_up_double_within p t0 now i kstar fuel Hi Hfuel Hstar)
        as (j1 & Hj1 & Hrun1 & Hge1).
      rewrite Hrun1.
      assert (Hij1 : (i < j1)%nat).
      { destruct (Nat.eq_dec i j1) as [->|Hne]; [|lia].
        rewrite Hge1 in E. discriminate E. }
      destruct (IH Hrest j1 fuel (proj2 Hj1) Hfuel)
        as (n2 & j2 & Hrun2 & Hj2 & Hn2 & Hlen2 & Hpos2 & Hin2).
      rewrite Hrun2. exists (S n2), j2.
      split; [reflexivity|]. split; [lia|]. split; [lia|].
      split; [simpl; lia|]. split; [lia|].
      intros [<-|Hin]; [|apply Hin2; exact Hin].
      assert (kstar <= j1)%nat; [|lia].
      destruct (Nat.le_gt_cases kstar j1) as [H|H]; [exact H|].
      rewrite (Hlt j1 H) in Hge1. discriminate Hge1.
    + destruct (IH Hrest i fuel Hi Hfuel)
        as (n2 & j2 & Hrun2 & Hj2 & Hn2 & Hlen2 & Hpos2 & Hin2).
      rewrite Hrun2. exists n2, j2.
      split; [reflexivity|]. split; [exact Hj2|]. split; [exact Hn2|].
      split; [simpl; lia|]. split; [exact Hpos2|].
      intros [<-|Hin]; [|apply Hin2; exact Hin].
      assert (kstar <= i)%nat; [|lia].
      destruct (Nat.le_gt_cases kstar i) as [H|H]; [exact H|].
      rewrite (Hlt i H) in E. discriminate E.
Qed.

(** C4 (as the code has it): let the calls be made at clock readings
    [nows] with latest reading [tmax], and let some sum [timer + K
    periods] be not below [tmax].  Then all calls come back; the timer
    ends at the original plus [k] periods, [k] being the least number of
    additions that brings it not below [tmax], however the readings are
    distributed; and the number of calls that ran the body is at most [k]
    and at most the number of calls, and at least 1 when the timer started
    below [tmax]. *)
Theorem run_ticks_double_keeps_phase
    (p t0 tmax : float) (nows : list float) (K : nat) :
  In tmax nows ->
  (forall x, In x nows -> PrimFloat.leb x tmax = true) ->
  PrimFloat.ltb (iter_add_double K p t0) tmax = false ->
  exists n k,
    (k <= K)%nat /\
    (forall fuel, (K <= fuel)%nat ->
       run_ticks_double fuel p t0 nows = Some (n, iter_add_double k p t0)) /\
    PrimFloat.ltb (iter_add_double k p t0) tmax = false /\
    (forall j, (j < k)%nat ->
               PrimFloat.ltb (iter_add_double j p t0) tmax = true) /\
    (n <= k)%nat /\ (n <= List.length nows)%nat /\
    (PrimFloat.ltb t0 tmax = true -> (1 <= n)%nat).
Proof.
  intros Hin Hle HK.
  destruct (first_sum_not_below p tmax t0 K HK) as (k & Hk & Hge & Hlt).
  destruct (run_ticks_double_inv p t0 tmax k Hge Hlt nows Hle O K
              (Nat.le_0_l k) Hk)
    as (n & j & Hrun & Hj & Hn & Hlen & Hpos & Hlast).
  specialize (Hlast Hin). subst j. simpl in Hrun.
  exists n, k. split; [exact Hk|]. split.
  - intros fuel Hfuel.
    exact (run_ticks_double_fuel_mono K fuel p nows Hfuel _ _ Hrun).
  - split; [exact Hge|]. split; [exact Hlt|]. split; [lia|].
    split; [exact Hlen|]. intros Hdue. apply Hpos.
    destruct k as [|k]; [|lia]. simpl in Hge. rewrite Hdue in Hge.
    discriminate Hge.
Qed.

Lemma run_ticks_double_keeps_phase_witness :
  (In 1.5%float [0.5; 1.5]%float /\
   (forall x, In x [0.5; 1.5]%float -> PrimFloat.leb x 1.5 = true) /\
   PrimFloat.ltb (iter_add_double 2 1 0) 1.5 = false) /\
  exists n k,
    (k <= 2)%nat /\
    (forall fuel, (2 <= fuel)%nat ->
       run_ticks_double fuel 1 0 [0.5; 1.5]%float
       = Some (n, iter_add_double k 1 0)) /\
    PrimFloat.ltb (iter_add_double k 1 0) 1.5 = false /\
    (forall j, (j < k)%nat ->
               PrimFloat.ltb (iter_add_double j 1 0) 1.5 = true) /\
    (n <= k)%nat /\ (n <= List.length [0.5; 1.5]%float)%nat /\
    (PrimFloat.ltb 0 1.5 = true -> (1 <= n)%nat).
Proof.
  assert (Hle : forall x, In x [0.5; 1.5]%float ->
                          PrimFloat.leb x 1.5 = true).
  { intros x [<-|[<-|[]]]; reflexivity. }
  split; [split; [right; left; reflexivity | split; [exact Hle|reflexivity]]|].
  apply (run_ticks_double_keeps_phase 1 0 1.5 [0.5; 1.5]%float 2);
    [right; left; reflexivity | exact Hle | reflexivity].
Defined.
